(** * Box space of gymnust: construction, summaries and seeding

    Shallow embedding of [src/spaces/box.rs] and [src/utils/seeding.rs].
    The tensor library that [box.rs] imports as [crate::tensor] (the candle
    API: [Tensor::full], [gt]/[lt] against a scalar, [clamp], [to_dtype],
    [flatten_all], [min]/[max], [elem_count]) is modelled with the element
    semantics of its CPU backend. Every call that [box.rs] unwraps returns a
    [Result]: on the CPU it succeeds for the arguments [Box::new] passes, on
    a CUDA or Metal device it fails when that backend has no kernel for a
    dtype involved; which kernels exist is a parameter of the model
    ([kernel_ok]), since it depends on the backend and on the build.

    Element values are modelled as integers, signed infinities and NaN:
    every integer-valued float of a buffer and every value of an integer
    buffer is a [Fin z]. Non-integer floats and the sign of a float zero are
    not modelled. *)

From Stdlib Require Import ZArith List String Ascii Bool Lia.
Import ListNotations.

Open Scope Z_scope.

(** ** Element values and element types *)

Inductive ext : Type :=
| NInf
| Fin (z : Z)
| PInf
| NaN.

Definition is_nan (x : ext) : bool :=
  match x with NaN => true | _ => false end.

(** IEEE comparisons: every comparison with a NaN is false. *)
Definition ext_ltb (x y : ext) : bool :=
  match x, y with
  | NaN, _ => false
  | _, NaN => false
  | NInf, NInf => false
  | NInf, _ => true
  | Fin _, NInf => false
  | Fin a, Fin b => a <? b
  | Fin _, PInf => true
  | PInf, _ => false
  end.

Definition ext_gtb (x y : ext) : bool := ext_ltb y x.

Definition ext_eqb (x y : ext) : bool :=
  match x, y with
  | NInf, NInf => true
  | Fin a, Fin b => a =? b
  | PInf, PInf => true
  | _, _ => false
  end.

(** [DType] of the tensor library. *)
Inductive DType : Type := U8 | U32 | I64 | BF16 | F16 | F32 | F64.

Inductive Device : Type := Cpu | Cuda (ordinal : nat) | Metal (ordinal : nat).

Definition is_float (d : DType) : bool :=
  match d with BF16 | F16 | F32 | F64 => true | _ => false end.

(** Significand bits and overflow exponent of the float types. *)
Definition precision (d : DType) : Z :=
  match d with BF16 => 8 | F16 => 11 | F32 => 24 | _ => 53 end.

Definition emax (d : DType) : Z :=
  match d with F16 => 16 | F64 => 1024 | _ => 128 end.

(** Representable range of the integer types. *)
Definition int_min (d : DType) : Z :=
  match d with I64 => - 2 ^ 63 | _ => 0 end.

Definition int_max (d : DType) : Z :=
  match d with U8 => 255 | U32 => 2 ^ 32 - 1 | _ => 2 ^ 63 - 1 end.

Definition in_range (d : DType) (x : ext) : bool :=
  if is_float d then true
  else match x with
       | Fin z => (int_min d <=? z) && (z <=? int_max d)
       | _ => false
       end.

(** Round an integer to [p] significant bits, ties to even. *)
Definition round_bits (p z : Z) : Z :=
  let a := Z.abs z in
  let k := Z.log2 a + 1 in
  if k <=? p then z
  else
    let s := k - p in
    let q := Z.shiftr a s in
    let r := a - Z.shiftl q s in
    let half := Z.shiftl 1 (s - 1) in
    let q' := if (half <? r) || ((r =? half) && Z.odd q) then q + 1 else q in
    Z.sgn z * Z.shiftl q' s.

(** Integer to float conversion of Rust's [as] (and of the [half] crate):
    round to nearest even, overflow to an infinity. *)
Definition round_to (d : DType) (z : Z) : ext :=
  let r := round_bits (precision d) z in
  if 2 ^ emax d <=? Z.abs r then (if r <? 0 then NInf else PInf) else Fin r.

(** Two's complement truncation of an integer [as] cast. *)
Definition wrap (d : DType) (z : Z) : Z :=
  match d with
  | U8 => z mod 2 ^ 8
  | U32 => z mod 2 ^ 32
  | _ => (z + 2 ^ 63) mod 2 ^ 64 - 2 ^ 63
  end.

(** Element conversion of [Tensor::to_dtype] from [src] to [dst] (the
    CPU backend applies [v as T]): float targets round and keep
    infinities and NaN, float-to-integer casts saturate (NaN becomes 0),
    integer-to-integer casts truncate. *)
Definition cast_value (src dst : DType) (x : ext) : ext :=
  if is_float dst then
    match x with Fin z => round_to dst z | _ => x end
  else
    match x with
    | NInf => Fin (int_min dst)
    | PInf => Fin (int_max dst)
    | NaN => Fin 0
    | Fin z =>
        if is_float src then Fin (Z.max (int_min dst) (Z.min (int_max dst) z))
        else Fin (wrap dst z)
    end.

(** ** Tensors *)

Record Tensor : Type := mkTensor {
  t_shape : list nat;
  t_data : list ext;
  t_dtype : DType;
  t_device : Device
}.

Definition elem_count_of (shape : list nat) : nat := fold_right Nat.mul 1%nat shape.

Definition elem_count (t : Tensor) : nat := elem_count_of (t_shape t).

(** [Tensor::full(value, shape, device)] on an [f64] value. *)
Definition full (v : ext) (shape : list nat) (dev : Device) : Tensor :=
  mkTensor shape (repeat v (elem_count_of shape)) F64 dev.

Definition to_dtype (t : Tensor) (d : DType) : Tensor :=
  mkTensor (t_shape t) (map (cast_value (t_dtype t) d) (t_data t)) d (t_device t).

Definition flag (b : bool) : ext := if b then Fin 1 else Fin 0.

(** [t.cmp(scalar, op)]: the [f32] scalar is first converted to the dtype
    of [t], then compared element-wise; the result is a [u8] tensor. *)
Definition cmp_scalar (op : ext -> ext -> bool) (t : Tensor) (c : ext) : Tensor :=
  let c' := cast_value F32 (t_dtype t) c in
  mkTensor (t_shape t) (map (fun x => flag (op x c')) (t_data t)) U8 (t_device t).

Definition gt (t : Tensor) (c : ext) : Tensor := cmp_scalar ext_gtb t c.
Definition lt (t : Tensor) (c : ext) : Tensor := cmp_scalar ext_ltb t c.

(** Element operations of [maximum] and [minimum]. *)
Definition ext_maximum (v1 v2 : ext) : ext := if ext_ltb v1 v2 then v2 else v1.
Definition ext_minimum (v1 v2 : ext) : ext := if ext_gtb v1 v2 then v2 else v1.

(** [t.clamp(min, max)] is [t.maximum(min)?.minimum(max)], the [f32]
    scalars converted to the dtype of [t]. *)
Definition clamp (t : Tensor) (lo hi : ext) : Tensor :=
  let lo' := cast_value F32 (t_dtype t) lo in
  let hi' := cast_value F32 (t_dtype t) hi in
  mkTensor (t_shape t)
    (map (fun x => ext_minimum (ext_maximum x lo') hi') (t_data t))
    (t_dtype t) (t_device t).

Definition flatten_all (t : Tensor) : Tensor :=
  mkTensor [elem_count t] (t_data t) (t_dtype t) (t_device t).

(** Reductions [min(0)] and [max(0)] of a one-dimensional tensor, read
    back with [to_scalar]; the accumulator starts at the first element
    and is replaced by an element only when the (IEEE) comparison holds. *)
Definition reduce (keep_new : ext -> ext -> bool) (xs : list ext) : ext :=
  match xs with
  | [] => NInf
  | x :: rest => fold_left (fun acc v => if keep_new v acc then v else acc) rest x
  end.

Definition tensor_min (t : Tensor) : ext := reduce ext_ltb (t_data t).
Definition tensor_max (t : Tensor) : ext := reduce ext_gtb (t_data t).

(** ** Rust's [Display] for an integer-valued [f32]

    The shortest decimal that reads back as the same [f32] (the shortest
    mode of [core::num::flt2dec]: among the shortest candidates the one
    nearest to the value, the upper one on a tie), padded with zeros (no
    exponent notation); infinities print as [inf]/[-inf], NaN as [NaN]. *)

Fixpoint digits_fuel (fuel : nat) (n : Z) (acc : string) : string :=
  match fuel with
  | O => acc
  | S f =>
      let acc' := String (ascii_of_nat (48 + Z.to_nat (n mod 10))) acc in
      if n <? 10 then acc' else digits_fuel f (n / 10) acc'
  end.

Definition z_to_string (z : Z) : string :=
  let s := digits_fuel 64 (Z.abs z) EmptyString in
  if z <? 0 then String "-" s else s.

Fixpoint dec_len_fuel (fuel : nat) (a : Z) : Z :=
  match fuel with
  | O => 1
  | S f => if a <? 10 then 1 else 1 + dec_len_fuel f (a / 10)
  end.

(** Number of decimal digits of a non-negative integer. *)
Definition dec_len (a : Z) : Z := dec_len_fuel 64 a.

(** The shortest decimal for the non-negative [f32] value [a], trying [n]
    significant digits and more: the two [n]-digit neighbours of [a]
    ([a] cut to [n] digits, and one unit more in the last digit) are the
    only [n]-digit candidates that can read back as [a]. *)
Fixpoint shortest_fuel (fuel : nat) (n a : Z) : Z :=
  match fuel with
  | O => a
  | S f =>
      let k := dec_len a in
      if k <=? n then a
      else
        let p := 10 ^ (k - n) in
        let q := a / p in
        let r := a mod p in
        let down := q * p in
        let up := (q + 1) * p in
        let down_ok := ext_eqb (round_to F32 down) (Fin a) in
        let up_ok := ext_eqb (round_to F32 up) (Fin a) in
        if down_ok && up_ok then (if p <=? 2 * r then up else down)
        else if down_ok then down
        else if up_ok then up
        else shortest_fuel f (n + 1) a
  end.

Definition fmt_f32 (x : ext) : string :=
  match x with
  | NInf => "-inf"
  | PInf => "inf"
  | NaN => "NaN"
  | Fin z =>
      let m := shortest_fuel 40 1 (Z.abs z) in
      z_to_string (if z <? 0 then - m else m)
  end.

Example fmt_f32_minus_one : fmt_f32 (Fin (-1)) = "-1"%string.
Proof. reflexivity. Qed.

Example fmt_f32_big : fmt_f32 (round_to F32 (10 ^ 20)) = "100000000000000000000"%string.
Proof. vm_compute. reflexivity. Qed.

(** [2^87] lies nearer to [1.5474250e26] than to [1.5474251e26], but only
    the latter reads back as [2^87]. *)
Example fmt_f32_pow87 : fmt_f32 (Fin (2 ^ 87)) = "154742510000000000000000000"%string.
Proof. vm_compute. reflexivity. Qed.

Example fmt_f32_pow90 : fmt_f32 (Fin (2 ^ 90)) = "1237940100000000000000000000"%string.
Proof. vm_compute. reflexivity. Qed.

(** ** [utils/seeding.rs]

    [Generator] is [rand_xoshiro::Xoshiro256Plus]; its [seed_from_u64]
    expands the seed into the four state words with [SplitMix64]. *)

Module Seeding.

Definition u64 (z : Z) : Z := z mod 2 ^ 64.

Definition rotl64 (x : Z) (n : Z) : Z :=
  u64 (Z.lor (Z.shiftl x n) (Z.shiftr x (64 - n))).

(** [SplitMix64::next_u64]: new state and output. *)
Definition splitmix_next (state : Z) : Z * Z :=
  let st := u64 (state + 11400714819323198485) in
  let z := u64 (Z.lxor st (Z.shiftr st 30) * 13787848793156543929) in
  let z := u64 (Z.lxor z (Z.shiftr z 27) * 10723151780598845931) in
  (st, Z.lxor z (Z.shiftr z 31)).

Record Generator : Type := mkGenerator { s0 : Z; s1 : Z; s2 : Z; s3 : Z }.

(** Four successive [SplitMix64] outputs, read back as the state words
    (the little-endian [fill_bytes] of [from_rng] and the little-endian
    [read_u64_into] of [from_seed] cancel). *)
Definition splitmix_words (seed : Z) : Generator :=
  let (st1, w0) := splitmix_next (u64 seed) in
  let (st2, w1) := splitmix_next st1 in
  let (st3, w2) := splitmix_next st2 in
  let (_, w3) := splitmix_next st3 in
  mkGenerator w0 w1 w2 w3.

(** [Xoshiro256Plus::seed_from_u64]; an all-zero seed is replaced by the
    state of [seed_from_u64(0)] in [from_seed]. *)
Definition seed_from_u64 (seed : Z) : Generator :=
  let g := splitmix_words seed in
  if (s0 g =? 0) && (s1 g =? 0) && (s2 g =? 0) && (s3 g =? 0)
  then splitmix_words 0 else g.

(** [Xoshiro256Plus::next_u64]. *)
Definition next_u64 (g : Generator) : Generator * Z :=
  let result_plus := u64 (s0 g + s3 g) in
  let t := u64 (Z.shiftl (s1 g) 17) in
  let s2a := Z.lxor (s2 g) (s0 g) in
  let s3a := Z.lxor (s3 g) (s1 g) in
  let s1a := Z.lxor (s1 g) s2a in
  let s0a := Z.lxor (s0 g) s3a in
  let s2b := Z.lxor s2a t in
  let s3b := rotl64 s3a 45 in
  (mkGenerator s0a s1a s2b s3b, result_plus).

(** The first [n] outputs of a generator. *)
Fixpoint outputs (g : Generator) (n : nat) : list Z :=
  match n with
  | O => []
  | S k => let (g', x) := next_u64 g in x :: outputs g' k
  end.

Inductive Seed : Type :=
| USize (seed : Z)
| SeedGenerator (generator : Generator).

(** [rs_random(seed)]. [entropy] is the value [rand::random()] would
    draw from the operating system; it is read only when [seed] is [None].
    [rs_seed as u64] is the identity on a 64-bit [usize]. *)
Definition rs_random (seed : option Z) (entropy : Z) : Generator * Z :=
  let rs_seed := match seed with
                 | Some seed => seed
                 | None => entropy
                 end in
  let rng := seed_from_u64 (u64 rs_seed) in
  (rng, rs_seed).

End Seeding.

Import Seeding.

(** ** [spaces/box.rs] *)

(** Outcome of a Rust call that may panic. *)
Inductive outcome (A : Type) : Type :=
| Ok (a : A)
| Panic (msg : string).
Arguments Ok {A} a.
Arguments Panic {A} msg.

(** Sequencing of calls ([?], or a panic that propagates). *)
Definition bind {A B : Type} (m : outcome A) (f : A -> outcome B) : outcome B :=
  match m with
  | Ok a => f a
  | Panic msg => Panic msg
  end.

Notation "'let*' x ':=' m 'in' f" := (bind m (fun x => f))
  (at level 200, x name, m at level 100, f at level 200).

(** The panic message of [.unwrap()] on an [Err] of the tensor library
    (followed there by the error's [Debug] text). *)
Definition unwrap_err : string := "called `Result::unwrap()` on an `Err` value".

(** [spaces::space::Bound], as [box.rs] uses it. *)
Inductive Bound : Type :=
| Bound_F64 (v : ext)
| Bound_Tensor (t : Tensor).

Record Box : Type := mkBox {
  shape : option (list nat);
  dtype : DType;
  rs_random : Generator;
  device : option Device;
  low : Tensor;
  high : Tensor;
  low_repr : string;
  high_repr : string;
  bounded_below : Tensor;
  bounded_above : Tensor
}.

(** Kernel tables of candle's backends when built with CUDA support: the
    CUDA backend has every kernel these calls use, the Metal backend has no
    [f64] kernels. *)
Definition candle_kernels (dev : Device) (d : DType) : bool :=
  match dev, d with
  | Metal _, F64 => false
  | _, _ => true
  end.

Section Box.

(** The default [Display] of a tensor ([arr.to_string()]), rendered by the
    tensor library. *)
Variable tensor_to_string : Tensor -> string.

(** Whether the backend of a non-CPU device has the kernels of an
    operation on a dtype (without the [cuda] feature every operation on a
    CUDA device fails). *)
Variable kernel_ok : Device -> DType -> bool.

(** The CPU backend implements these operations for every dtype. *)
Definition op_ok (dev : Device) (d : DType) : bool :=
  match dev with
  | Cpu => true
  | _ => kernel_ok dev d
  end.

(** A call of the tensor library on [dev] involving the dtypes [ds], with
    its [Result] unwrapped. *)
Definition tensor_op {A : Type} (dev : Device) (ds : list DType) (x : A) : outcome A :=
  if forallb (op_ok dev) ds then Ok x else Panic unwrap_err.

(** The unwrapped calls of [box.rs]. *)
Definition full_r (v : ext) (shape : list nat) (dev : Device) : outcome Tensor :=
  tensor_op dev [F64] (full v shape dev).

Definition gt_r (t : Tensor) (c : ext) : outcome Tensor :=
  tensor_op (t_device t) [t_dtype t; U8] (gt t c).

Definition lt_r (t : Tensor) (c : ext) : outcome Tensor :=
  tensor_op (t_device t) [t_dtype t; U8] (lt t c).

Definition to_dtype_r (t : Tensor) (d : DType) : outcome Tensor :=
  tensor_op (t_device t) [t_dtype t; d] (to_dtype t d).

Definition clamp_r (t : Tensor) (lo hi : ext) : outcome Tensor :=
  tensor_op (t_device t) [t_dtype t] (clamp t lo hi).

Definition min_r (t : Tensor) : outcome ext :=
  tensor_op (t_device t) [t_dtype t] (tensor_min t).

Definition max_r (t : Tensor) : outcome ext :=
  tensor_op (t_device t) [t_dtype t] (tensor_max t).

(** [_short_repr]; [flatten_all] of a contiguous tensor and [to_scalar] of
    the reduced one-element tensor do not fail. *)
Definition _short_repr (arr : Tensor) : outcome string :=
  let arr_size := elem_count arr in
  if Nat.eqb arr_size 0 then Ok "[]"%string
  else
    let* flattened_arr := to_dtype_r (flatten_all arr) F32 in
    let* min := min_r flattened_arr in
    let* max := max_r flattened_arr in
    if ext_eqb min max then Ok (String.append "[" (String.append (fmt_f32 min) "]"))
    else Ok (tensor_to_string arr).

(** [_broadcast]: [value.clamp(-f32::INFINITY, f32::INFINITY).unwrap()]. *)
Definition _broadcast (value : Tensor) : outcome Tensor := clamp_r value NInf PInf.

(** [Box::new]. *)
Definition box_new (low high : Bound) (shape : option (list nat)) (dtype : DType)
    (seed : option Seed) (device : option Device) (entropy : Z) : outcome Box :=
  let device := match device with Some device => device | None => Cpu end in
  let* shape :=
    match shape with
    | Some shape => Ok shape
    | None =>
        match low with
        | Bound_F64 _ => Panic "Low must be a tensor"
        | Bound_Tensor low =>
            match high with
            | Bound_F64 _ => Panic "High must be a tensor"
            | Bound_Tensor high =>
                if list_eq_dec Nat.eq_dec (t_shape low) (t_shape high)
                then Ok (t_shape low)
                else Panic "Low and high must have the same shape"
            end
        end
    end in
  let* _low := match low with
               | Bound_F64 low => full_r low shape device
               | Bound_Tensor low => Ok low
               end in
  let* cmp_below := gt_r _low NInf in
  let* bounded_below := to_dtype_r cmp_below dtype in
  let* _high := match high with
                | Bound_F64 high => full_r high shape device
                | Bound_Tensor high => Ok high
                end in
  let* cmp_above := lt_r _high PInf in
  let* bounded_above := to_dtype_r cmp_above dtype in
  let* low := _broadcast _low in
  let* high := _broadcast _high in
  let _rs_random := match seed with
                    | Some (USize seed) => fst (Seeding.rs_random (Some seed) entropy)
                    | Some (SeedGenerator generator) => generator
                    | None => fst (Seeding.rs_random None entropy)
                    end in
  let* low_repr := _short_repr _low in
  let* high_repr := _short_repr _high in
  Ok (mkBox (Some shape) dtype _rs_random (Some device) low high
            low_repr high_repr bounded_below bounded_above).

End Box.

(** ** The [Space] implementation of [Box] *)

Definition is_flattenable (b : Box) : bool := true.

(** [sample] is [todo!()], which panics. *)
Definition sample {Mask : Type} (b : Box) (mask : option Mask) : outcome Tensor :=
  Panic "not yet implemented".

Definition contains {T : Type} (b : Box) (x : T) : outcome bool := Ok true.

(** [seed]: the generator is replaced by the one [rs_random] builds. *)
Definition seed (b : Box) (seed : option Z) (entropy : Z) : Box * list Z :=
  let (g, rs_seed) := Seeding.rs_random seed entropy in
  (mkBox (shape b) (dtype b) g (device b) (low b) (high b)
         (low_repr b) (high_repr b) (bounded_below b) (bounded_above b),
   [rs_seed]).

(** * Properties *)

(** ** Order facts on element values *)









(** ** Reductions under IEEE comparisons

    The comparison is a strict order on the non-NaN values and false as
    soon as a NaN is involved. *)

Section Reduce.

Variable R : ext -> ext -> bool.
Hypothesis R_trans : forall x y z, R x y = true -> R y z = true -> R x z = true.
Hypothesis R_irrefl : forall x, R x x = false.
Hypothesis R_negtrans : forall x y z, x <> NaN -> y <> NaN -> z <> NaN ->
  R x y = false -> R y z = false -> R x z = false.
Hypothesis R_nan_l : forall y, R NaN y = false.
Hypothesis R_nan_r : forall x, R x NaN = false.





End Reduce.



(** ** Calls that may fail *)

Lemma bind_ok_inv : forall (A B : Type) (m : outcome A) (f : A -> outcome B) b,
  bind m f = Ok b -> exists a, m = Ok a /\ f a = Ok b.
Proof. intros A B [a|msg] f b H; [exists a; split; [reflexivity|exact H]|discriminate]. Qed.

Lemma bind_panic_inv : forall (A B : Type) (m : outcome A) (f : A -> outcome B) msg,
  bind m f = Panic msg -> m = Panic msg \/ exists a, m = Ok a /\ f a = Panic msg.
Proof. intros A B [a|msg'] f msg H; simpl in H; [right; exists a; auto|left; congruence]. Qed.

Lemma tensor_op_ok_inv : forall kern (A : Type) dev ds (x y : A),
  tensor_op kern dev ds x = Ok y -> y = x.
Proof. intros kern A dev ds x y H. unfold tensor_op in H. destruct (forallb _ _); congruence. Qed.

Lemma bind_tensor_op : forall kern (A B : Type) dev ds (x : A) (f : A -> outcome B),
  forallb (op_ok kern dev) ds = true -> bind (tensor_op kern dev ds x) f = f x.
Proof. intros kern A B dev ds x f H. unfold tensor_op. rewrite H. reflexivity. Qed.

Lemma bind_Ok : forall (A B : Type) (x : A) (f : A -> outcome B), bind (Ok x) f = f x.
Proof. reflexivity. Qed.

(** An outcome whose only possible panic is an unwrapped library error. *)
Definition only_unwrap {A : Type} (o : outcome A) : Prop :=
  forall msg, o = Panic msg -> msg = unwrap_err.

Lemma bind_only_unwrap : forall (A B : Type) (m : outcome A) (f : A -> outcome B),
  only_unwrap m -> (forall a, only_unwrap (f a)) -> only_unwrap (bind m f).
Proof.
  intros A B [a|msg] f Hm Hf msg' H; simpl in H; [exact (Hf a msg' H)|].
  injection H as ->. apply Hm. reflexivity.
Qed.

Lemma tensor_op_only_unwrap : forall kern (A : Type) dev ds (x : A),
  only_unwrap (tensor_op kern dev ds x).
Proof. intros kern A dev ds x msg. unfold tensor_op. destruct (forallb _ _); congruence. Qed.

Lemma Ok_only_unwrap : forall (A : Type) (x : A), only_unwrap (Ok x).
Proof. intros A x msg H. discriminate. Qed.

Lemma op_ok_cpu : forall kern d, op_ok kern Cpu d = true.
Proof. reflexivity. Qed.

(** The kernels the construction needs for a bound buffer [t]. *)
Definition kernels_ok (kern : Device -> DType -> bool) (t : Tensor) (dt : DType) : bool :=
  forallb (op_ok kern (t_device t)) [t_dtype t; U8; dt; F32].

Lemma kernels_ok_cpu : forall kern t dt, t_device t = Cpu -> kernels_ok kern t dt = true.
Proof. intros kern t dt H. unfold kernels_ok. rewrite H. reflexivity. Qed.

(** Discharges the kernel condition of a call from the [op_ok] facts in
    the context. *)
Ltac kern_side :=
  cbn [t_device t_dtype gt lt cmp_scalar to_dtype clamp full flatten_all];
  apply forallb_forall; intros ?d ?Hd; simpl in Hd;
  repeat match goal with H : _ \/ _ |- _ => destruct H end;
  try contradiction; subst;
  match goal with H : op_ok _ _ _ = true |- _ => exact H end.

Ltac split_kernels :=
  repeat match goal with
         | H : kernels_ok _ _ _ = true |- _ =>
             unfold kernels_ok in H; cbn [forallb t_device t_dtype full] in H
         | H : _ && _ = true |- _ => apply andb_prop in H; destruct H
         end.

(** ** Formatting *)

Lemma short_repr_only_unwrap : forall tts kern arr, only_unwrap (_short_repr tts kern arr).
Proof.
  intros tts kern arr. unfold _short_repr. destruct (Nat.eqb _ _); [apply Ok_only_unwrap|].
  apply bind_only_unwrap; [apply tensor_op_only_unwrap|intros f].
  apply bind_only_unwrap; [apply tensor_op_only_unwrap|intros mn].
  apply bind_only_unwrap; [apply tensor_op_only_unwrap|intros mx].
  destruct (ext_eqb _ _); apply Ok_only_unwrap.
Qed.

Lemma short_repr_ok : forall tts kern arr,
  op_ok kern (t_device arr) (t_dtype arr) = true -> op_ok kern (t_device arr) F32 = true ->
  exists r, _short_repr tts kern arr = Ok r.
Proof.
  intros tts kern arr H1 H2. unfold _short_repr. destruct (Nat.eqb _ _); [eexists; reflexivity|].
  unfold to_dtype_r, min_r, max_r.
  rewrite bind_tensor_op by kern_side. cbv beta.
  rewrite bind_tensor_op by kern_side. cbv beta.
  rewrite bind_tensor_op by kern_side. cbv beta.
  destruct (ext_eqb _ _); eexists; reflexivity.
Qed.


(** ** Construction *)

(** Bound shapes as [Box::new] materialises them. *)
Definition materialize (b : Bound) (shape : list nat) (dev : Device) : Tensor :=
  match b with
  | Bound_F64 v => full v shape dev
  | Bound_Tensor t => t
  end.

(** The device a bound lives on. *)
Definition bound_device (b : Bound) (dev : Device) : Device :=
  match b with
  | Bound_F64 _ => dev
  | Bound_Tensor t => t_device t
  end.

Definition resolve_device (device : option Device) : Device :=
  match device with Some device => device | None => Cpu end.

(** Shape resolution of [Box::new]. *)
Definition resolve_shape (low high : Bound) (shape : option (list nat)) : outcome (list nat) :=
  match shape with
  | Some shape => Ok shape
  | None =>
      match low with
      | Bound_F64 _ => Panic "Low must be a tensor"
      | Bound_Tensor low =>
          match high with
          | Bound_F64 _ => Panic "High must be a tensor"
          | Bound_Tensor high =>
              if list_eq_dec Nat.eq_dec (t_shape low) (t_shape high)
              then Ok (t_shape low)
              else Panic "Low and high must have the same shape"
          end
      end
  end.

(** The generator [Box::new] stores. *)
Definition box_generator (seed : option Seed) (entropy : Z) : Generator :=
  match seed with
  | Some (USize seed) => fst (Seeding.rs_random (Some seed) entropy)
  | Some (SeedGenerator generator) => generator
  | None => fst (Seeding.rs_random None entropy)
  end.

(** [Box::new] once the shape is resolved. *)
Definition box_rest (tts : Tensor -> string) (kern : Device -> DType -> bool)
    (low high : Bound) (shape : list nat) (dtype : DType) (seed : option Seed)
    (device : Device) (entropy : Z) : outcome Box :=
  let* _low := match low with
               | Bound_F64 low => full_r kern low shape device
               | Bound_Tensor low => Ok low
               end in
  let* cmp_below := gt_r kern _low NInf in
  let* bounded_below := to_dtype_r kern cmp_below dtype in
  let* _high := match high with
                | Bound_F64 high => full_r kern high shape device
                | Bound_Tensor high => Ok high
                end in
  let* cmp_above := lt_r kern _high PInf in
  let* bounded_above := to_dtype_r kern cmp_above dtype in
  let* low := _broadcast kern _low in
  let* high := _broadcast kern _high in
  let _rs_random := match seed with
                    | Some (USize seed) => fst (Seeding.rs_random (Some seed) entropy)
                    | Some (SeedGenerator generator) => generator
                    | None => fst (Seeding.rs_random None entropy)
                    end in
  let* low_repr := _short_repr tts kern _low in
  let* high_repr := _short_repr tts kern _high in
  Ok (mkBox (Some shape) dtype _rs_random (Some device) low high
            low_repr high_repr bounded_below bounded_above).

Lemma box_new_eq : forall tts kern lo hi shp dt sd dev e,
  box_new tts kern lo hi shp dt sd dev e
  = bind (resolve_shape lo hi shp)
         (fun s => box_rest tts kern lo hi s dt sd (resolve_device dev) e).
Proof. reflexivity. Qed.

Lemma resolve_shape_some : forall lo hi s, resolve_shape lo hi (Some s) = Ok s.
Proof. reflexivity. Qed.

Lemma resolve_shape_ok_inv : forall lo hi shp s,
  resolve_shape lo hi shp = Ok s ->
  (forall s', shp = Some s' -> s = s')
  /\ (shp = None -> exists tl th, lo = Bound_Tensor tl /\ hi = Bound_Tensor th
                                  /\ s = t_shape tl /\ t_shape th = t_shape tl).
Proof.
  intros lo hi [s0|] s H; simpl in H.
  - injection H as <-. split; [intros s' E; injection E; auto|discriminate].
  - split; [discriminate|intros _].
    destruct lo as [vl|tl]; [discriminate|]. destruct hi as [vh|th]; [discriminate|].
    destruct (list_eq_dec Nat.eq_dec (t_shape tl) (t_shape th)) as [Eq|_]; [|discriminate].
    injection H as <-. exists tl, th. auto.
Qed.

(** A well-formed buffer holds only values of its dtype. *)
Definition wf_tensor (t : Tensor) : bool := forallb (in_range (t_dtype t)) (t_data t).

Lemma clamp_wf_id : forall t, wf_tensor t = true -> clamp t NInf PInf = t.
Proof.
  intros [sh data dt dev] H. unfold clamp, wf_tensor in *; simpl in *.
  f_equal. rewrite <- (map_id data) at 2. apply map_ext_in.
  intros x Hx. pose proof (proj1 (forallb_forall _ _) H x Hx) as Hr.
  unfold in_range, cast_value in *.
  destruct dt; simpl in *;
    unfold ext_minimum, ext_maximum, ext_gtb; destruct x; simpl in *;
    try discriminate; try reflexivity;
    apply andb_prop in Hr; destruct Hr as [Ha Hb];
    apply Z.leb_le in Ha; apply Z.leb_le in Hb;
    repeat match goal with
           | |- context [?a <? ?b] => destruct (Z.ltb_spec a b)
           end; try reflexivity; f_equal; lia.
Qed.

Lemma full_wf : forall v s dev, wf_tensor (full v s dev) = true.
Proof. intros. unfold wf_tensor. apply forallb_forall. intros; reflexivity. Qed.

Lemma match_bound_ok : forall kern lo s device x,
  match lo with
  | Bound_F64 low => full_r kern low s device
  | Bound_Tensor low => Ok low
  end = Ok x -> x = materialize lo s device.
Proof.
  intros kern [v|t] s device x H; simpl.
  - unfold full_r in H. apply tensor_op_ok_inv in H. exact H.
  - injection H as <-. reflexivity.
Qed.

Lemma box_rest_ok_inv : forall tts kern lo hi s dt sd dv e b,
  box_rest tts kern lo hi s dt sd dv e = Ok b ->
  shape b = Some s /\ dtype b = dt /\ rs_random b = box_generator sd e
  /\ device b = Some dv
  /\ low b = clamp (materialize lo s dv) NInf PInf
  /\ high b = clamp (materialize hi s dv) NInf PInf
  /\ _short_repr tts kern (materialize lo s dv) = Ok (low_repr b)
  /\ _short_repr tts kern (materialize hi s dv) = Ok (high_repr b)
  /\ bounded_below b = to_dtype (gt (materialize lo s dv) NInf) dt
  /\ bounded_above b = to_dtype (lt (materialize hi s dv) PInf) dt.
Proof.
  intros tts kern lo hi s dt sd dv e b H. unfold box_rest in H.
  apply bind_ok_inv in H as [tl [Htl H]]. apply match_bound_ok in Htl. subst tl.
  apply bind_ok_inv in H as [cb [Hcb H]]. unfold gt_r in Hcb. apply tensor_op_ok_inv in Hcb. subst cb.
  apply bind_ok_inv in H as [bb [Hbb H]]. unfold to_dtype_r in Hbb. apply tensor_op_ok_inv in Hbb. subst bb.
  apply bind_ok_inv in H as [th [Hth H]]. apply match_bound_ok in Hth. subst th.
  apply bind_ok_inv in H as [ca [Hca H]]. unfold lt_r in Hca. apply tensor_op_ok_inv in Hca. subst ca.
  apply bind_ok_inv in H as [ba [Hba H]]. unfold to_dtype_r in Hba. apply tensor_op_ok_inv in Hba. subst ba.
  apply bind_ok_inv in H as [l [Hl H]]. unfold _broadcast, clamp_r in Hl. apply tensor_op_ok_inv in Hl. subst l.
  apply bind_ok_inv in H as [h [Hh H]]. unfold _broadcast, clamp_r in Hh. apply tensor_op_ok_inv in Hh. subst h.
  apply bind_ok_inv in H as [lr [Hlr H]].
  apply bind_ok_inv in H as [hr [Hhr H]].
  injection H as <-. cbn [shape dtype rs_random device low high low_repr high_repr
                          bounded_below bounded_above].
  repeat split; assumption.
Qed.

Lemma box_rest_ok : forall tts kern lo hi s dt sd dv e,
  kernels_ok kern (materialize lo s dv) dt = true ->
  kernels_ok kern (materialize hi s dv) dt = true ->
  exists b, box_rest tts kern lo hi s dt sd dv e = Ok b.
Proof.
  intros tts kern lo hi s dt sd dv e Hl Hh.
  assert (Hr : forall bd, kernels_ok kern (materialize bd s dv) dt = true ->
                 exists r, _short_repr tts kern (materialize bd s dv) = Ok r).
  { intros bd Hb. split_kernels. apply short_repr_ok; assumption. }
  destruct (Hr lo Hl) as [lr Hlr], (Hr hi Hh) as [hr Hhr].
  destruct lo as [vl|tl], hi as [vh|th]; cbn [materialize] in *; split_kernels;
    unfold box_rest, full_r, gt_r, lt_r, to_dtype_r, _broadcast, clamp_r;
    cbv iota;
    repeat first [ rewrite bind_tensor_op by kern_side; cbv beta
                 | rewrite bind_Ok; cbv beta
                 | rewrite Hlr | rewrite Hhr ];
    eexists; reflexivity.
Qed.

Lemma box_rest_only_unwrap : forall tts kern lo hi s dt sd dv e,
  only_unwrap (box_rest tts kern lo hi s dt sd dv e).
Proof.
  intros. unfold box_rest.
  apply bind_only_unwrap; [destruct lo; [apply tensor_op_only_unwrap|apply Ok_only_unwrap]|intros tl].
  apply bind_only_unwrap; [apply tensor_op_only_unwrap|intros cb].
  apply bind_only_unwrap; [apply tensor_op_only_unwrap|intros bb].
  apply bind_only_unwrap; [destruct hi; [apply tensor_op_only_unwrap|apply Ok_only_unwrap]|intros th].
  apply bind_only_unwrap; [apply tensor_op_only_unwrap|intros ca].
  apply bind_only_unwrap; [apply tensor_op_only_unwrap|intros ba].
  apply bind_only_unwrap; [apply tensor_op_only_unwrap|intros l].
  apply bind_only_unwrap; [apply tensor_op_only_unwrap|intros h].
  apply bind_only_unwrap; [apply short_repr_only_unwrap|intros lr].
  apply bind_only_unwrap; [apply short_repr_only_unwrap|intros hr].
  apply Ok_only_unwrap.
Qed.

Lemma box_new_ok_inv : forall tts kern lo hi shp dt sd dev e b,
  box_new tts kern lo hi shp dt sd dev e = Ok b ->
  exists s, (forall s', shp = Some s' -> s = s')
    /\ (shp = None -> exists tl th, lo = Bound_Tensor tl /\ hi = Bound_Tensor th
                                    /\ s = t_shape tl /\ t_shape th = t_shape tl)
    /\ shape b = Some s /\ dtype b = dt /\ rs_random b = box_generator sd e
    /\ device b = Some (resolve_device dev)
    /\ low b = clamp (materialize lo s (resolve_device dev)) NInf PInf
    /\ high b = clamp (materialize hi s (resolve_device dev)) NInf PInf
    /\ _short_repr tts kern (materialize lo s (resolve_device dev)) = Ok (low_repr b)
    /\ _short_repr tts kern (materialize hi s (resolve_device dev)) = Ok (high_repr b)
    /\ bounded_below b = to_dtype (gt (materialize lo s (resolve_device dev)) NInf) dt
    /\ bounded_above b = to_dtype (lt (materialize hi s (resolve_device dev)) PInf) dt.
Proof.
  intros tts kern lo hi shp dt sd dev e b H. rewrite box_new_eq in H.
  apply bind_ok_inv in H as [s [Hs H]]. exists s.
  destruct (resolve_shape_ok_inv _ _ _ _ Hs) as [H1 H2].
  split; [exact H1|]. split; [exact H2|]. exact (box_rest_ok_inv _ _ _ _ _ _ _ _ _ _ H).
Qed.

(** The panic condition of shape resolution. *)
Definition shape_panic (lo hi : Bound) (shp : option (list nat)) (msg : string) : Prop :=
  shp = None /\
  (((exists v, lo = Bound_F64 v) /\ msg = "Low must be a tensor"%string)
   \/ ((exists t v, lo = Bound_Tensor t /\ hi = Bound_F64 v)
       /\ msg = "High must be a tensor"%string)
   \/ ((exists tl th, lo = Bound_Tensor tl /\ hi = Bound_Tensor th
                      /\ t_shape tl <> t_shape th)
       /\ msg = "Low and high must have the same shape"%string)).

Lemma resolve_shape_panic : forall lo hi shp msg,
  resolve_shape lo hi shp = Panic msg <-> shape_panic lo hi shp msg.
Proof.
  intros lo hi shp msg. unfold shape_panic. split.
  - destruct shp as [s|]; simpl; [discriminate|]. intros H. split; [reflexivity|].
    destruct lo as [vl|tl].
    + injection H as <-. left; eauto.
    + destruct hi as [vh|th].
      * injection H as <-. right; left; eauto.
      * destruct (list_eq_dec Nat.eq_dec (t_shape tl) (t_shape th)) as [Eq|Ne].
        -- discriminate.
        -- injection H as <-. right; right. split; [exists tl, th; repeat split; assumption|reflexivity].
  - intros [-> H]. simpl.
    destruct H as [[[v ->] ->]|[[[t [v [-> ->]]] ->]|[[tl [th [-> [-> Ne]]]] ->]]];
      try reflexivity.
    destruct (list_eq_dec Nat.eq_dec (t_shape tl) (t_shape th)) as [Eq|_];
      [contradiction|reflexivity].
Qed.

Lemma shape_panic_msg : forall lo hi shp msg, shape_panic lo hi shp msg -> msg <> unwrap_err.
Proof.
  intros lo hi shp msg [_ [[_ ->]|[[_ ->]|[_ ->]]]]; unfold unwrap_err; discriminate.
Qed.

Lemma bound_kernels_cpu : forall kern b s device dt,
  bound_device b device = Cpu -> kernels_ok kern (materialize b s device) dt = true.
Proof. intros kern [v|t] s device dt H; apply kernels_ok_cpu; exact H. Qed.

(** ** Claims on construction *)

(** C3 (as the code has it): construction panics with one of the three
    shape-resolution messages exactly when no shape is given and either a
    bound is a scalar ([Low must be a tensor] is reported first, then
    [High must be a tensor]) or the two buffers differ in shape. Any other
    panic is an unwrapped error of the tensor library, and needs a bound
    that lives on a non-CPU device. *)
Theorem box_new_panics_iff : forall tts kern lo hi shp dt sd dev e msg,
  (msg <> unwrap_err ->
   (box_new tts kern lo hi shp dt sd dev e = Panic msg <-> shape_panic lo hi shp msg)) /\
  (box_new tts kern lo hi shp dt sd dev e = Panic msg ->
   shape_panic lo hi shp msg \/
   (msg = unwrap_err /\ (bound_device lo (resolve_device dev) <> Cpu
                         \/ bound_device hi (resolve_device dev) <> Cpu))).
Proof.
  intros tts kern lo hi shp dt sd dev e msg. rewrite box_new_eq. split.
  - intros Hm. split.
    + intros H. apply bind_panic_inv in H as [H|[s [Hs H]]].
      * apply resolve_shape_panic; exact H.
      * exfalso. apply Hm. exact (box_rest_only_unwrap _ _ _ _ _ _ _ _ _ msg H).
    + intros H. apply resolve_shape_panic in H. rewrite H. reflexivity.
  - intros H. apply bind_panic_inv in H as [H|[s [Hs H]]].
    + left. apply resolve_shape_panic; exact H.
    + right. split; [exact (box_rest_only_unwrap _ _ _ _ _ _ _ _ _ msg H)|].
      destruct (bound_device lo (resolve_device dev)) eqn:El;
        [|left; discriminate|left; discriminate].
      destruct (bound_device hi (resolve_device dev)) eqn:Eh;
        [|right; discriminate|right; discriminate].
      exfalso.
      destruct (box_rest_ok tts kern lo hi s dt sd (resolve_device dev) e) as [b Hb];
        [apply bound_kernels_cpu; exact El|apply bound_kernels_cpu; exact Eh|].
      congruence.
Qed.

Lemma box_new_panics_iff_witness :
  box_new (fun _ => EmptyString) candle_kernels (Bound_F64 (Fin 0)) (Bound_F64 (Fin 1))
    None F32 None None 0 = Panic "Low must be a tensor"%string.
Proof.
  apply (proj2 (proj1 (box_new_panics_iff (fun _ => EmptyString) candle_kernels
                         (Bound_F64 (Fin 0)) (Bound_F64 (Fin 1)) None F32 None None 0
                         "Low must be a tensor"%string)
                  ltac:(unfold unwrap_err; discriminate))).
  split; [reflexivity|left; split; [exists (Fin 0); reflexivity|reflexivity]].
Defined.

(** C3 fails off the CPU: candle's Metal backend has no [f64] kernels, so
    scalar bounds with an explicit shape on a Metal device make
    construction panic at an unwrap, which is none of the shape errors. *)
Lemma box_new_metal_f64_cx :
  box_new (fun _ => EmptyString) candle_kernels (Bound_F64 (Fin 0)) (Bound_F64 (Fin 1))
    (Some [1%nat]) F32 None (Some (Metal 0)) 0 = Panic unwrap_err
  /\ ~ shape_panic (Bound_F64 (Fin 0)) (Bound_F64 (Fin 1)) (Some [1%nat]) unwrap_err.
Proof. split; [reflexivity|]. intros [H _]. discriminate H. Qed.

(** C10: with an explicit shape, construction never panics on a shape
    condition, whatever the shapes of buffer-valued bounds: its only
    possible panic is an unwrapped library error, and it succeeds whenever
    the devices of the bounds have the kernels it uses (on the CPU,
    always: [kernels_ok_cpu]). *)
Theorem box_new_explicit_shape_total : forall tts kern lo hi s dt sd dev e,
  (forall msg, box_new tts kern lo hi (Some s) dt sd dev e = Panic msg -> msg = unwrap_err) /\
  (kernels_ok kern (materialize lo s (resolve_device dev)) dt = true ->
   kernels_ok kern (materialize hi s (resolve_device dev)) dt = true ->
   exists b, box_new tts kern lo hi (Some s) dt sd dev e = Ok b).
Proof.
  intros. rewrite box_new_eq, resolve_shape_some, bind_Ok. split.
  - apply box_rest_only_unwrap.
  - apply box_rest_ok.
Qed.

Lemma box_new_explicit_shape_total_witness :
  exists b, box_new (fun _ => EmptyString) candle_kernels
              (Bound_Tensor (mkTensor [3%nat] [Fin 0; Fin 0; Fin 0] F32 (Metal 0)))
              (Bound_Tensor (mkTensor [1%nat] [Fin 1] F32 (Metal 0)))
              (Some [2%nat]) F32 None (Some (Metal 0)) 0 = Ok b.
Proof.
  apply (proj2 (box_new_explicit_shape_total (fun _ => EmptyString) candle_kernels
                  (Bound_Tensor (mkTensor [3%nat] [Fin 0; Fin 0; Fin 0] F32 (Metal 0)))
                  (Bound_Tensor (mkTensor [1%nat] [Fin 1] F32 (Metal 0)))
                  [2%nat] F32 None (Some (Metal 0)) 0)); reflexivity.
Defined.

(** C5: a scalar bound with an explicit shape [s] is stored as a buffer of
    shape [s] filled with the scalar; equal-shaped buffers without an
    explicit shape give the resolved shape of the buffers and are stored as
    they are. Construction succeeds in both cases when the devices have the
    kernels it uses (on the CPU, always). *)
Theorem box_new_materialize :
  (forall tts kern s x y dt sd dev e,
     kernels_ok kern (full x s (resolve_device dev)) dt = true ->
     exists b, box_new tts kern (Bound_F64 x) (Bound_F64 y) (Some s) dt sd dev e = Ok b
       /\ shape b = Some s
       /\ t_shape (low b) = s /\ t_shape (high b) = s
       /\ t_data (low b) = repeat x (elem_count_of s)
       /\ t_data (high b) = repeat y (elem_count_of s))
  /\
  (forall tts kern tl th dt sd dev e,
     t_shape tl = t_shape th -> wf_tensor tl = true -> wf_tensor th = true ->
     kernels_ok kern tl dt = true -> kernels_ok kern th dt = true ->
     exists b, box_new tts kern (Bound_Tensor tl) (Bound_Tensor th) None dt sd dev e = Ok b
       /\ shape b = Some (t_shape tl) /\ low b = tl /\ high b = th).
Proof.
  split.
  - intros tts kern s x y dt sd dev e Hk.
    rewrite box_new_eq, resolve_shape_some, bind_Ok.
    destruct (box_rest_ok tts kern (Bound_F64 x) (Bound_F64 y) s dt sd (resolve_device dev) e Hk Hk)
      as [b Hb].
    exists b. split; [exact Hb|].
    apply box_rest_ok_inv in Hb as (Hs & _ & _ & _ & Hl & Hh & _).
    rewrite Hs, Hl, Hh. cbn [materialize]. rewrite !clamp_wf_id by apply full_wf.
    repeat split; reflexivity.
  - intros tts kern tl th dt sd dev e Hs Hl Hh Kl Kh.
    rewrite box_new_eq. cbn [resolve_shape].
    destruct (list_eq_dec Nat.eq_dec (t_shape tl) (t_shape th)) as [_|Ne]; [|contradiction].
    rewrite bind_Ok.
    destruct (box_rest_ok tts kern (Bound_Tensor tl) (Bound_Tensor th) (t_shape tl) dt sd
                (resolve_device dev) e Kl Kh) as [b Hb].
    exists b. split; [exact Hb|].
    apply box_rest_ok_inv in Hb as (HS & _ & _ & _ & HL & HH & _).
    rewrite HS, HL, HH. cbn [materialize]. rewrite !clamp_wf_id by assumption.
    repeat split; reflexivity.
Qed.

Lemma box_new_materialize_witness :
  exists b, box_new (fun _ => EmptyString) candle_kernels
              (Bound_Tensor (mkTensor [2%nat] [Fin 0; Fin 1] U8 Cpu))
              (Bound_Tensor (mkTensor [2%nat] [Fin 5; Fin 255] U8 Cpu))
              None U8 None None 0 = Ok b
    /\ shape b = Some [2%nat]
    /\ low b = mkTensor [2%nat] [Fin 0; Fin 1] U8 Cpu
    /\ high b = mkTensor [2%nat] [Fin 5; Fin 255] U8 Cpu.
Proof.
  apply (proj2 box_new_materialize); reflexivity.
Defined.

(** C4 (as the code has it): the shape field is [Some s], [s] being the
    explicit shape when one is given; a scalar bound is stored with shape
    [s] and a buffer bound with its own shape, so the two buffers and the
    shape field agree whenever no explicit shape was given. *)
Theorem box_new_shapes : forall tts kern lo hi shp dt sd dev e b,
  box_new tts kern lo hi shp dt sd dev e = Ok b ->
  exists s, shape b = Some s
    /\ (forall s', shp = Some s' -> s = s')
    /\ t_shape (low b) = match lo with Bound_F64 _ => s | Bound_Tensor t => t_shape t end
    /\ t_shape (high b) = match hi with Bound_F64 _ => s | Bound_Tensor t => t_shape t end
    /\ (shp = None -> t_shape (low b) = s /\ t_shape (high b) = s).
Proof.
  intros tts kern lo hi shp dt sd dev e b H.
  apply box_new_ok_inv in H as (s & H1 & H2 & Hs & _ & _ & _ & Hl & Hh & _).
  exists s. rewrite Hl, Hh. cbn [clamp t_shape].
  split; [exact Hs|]. split; [exact H1|].
  split; [destruct lo; reflexivity|]. split; [destruct hi; reflexivity|].
  intros Hn. destruct (H2 Hn) as (tl & th & -> & -> & -> & E).
  cbn [materialize]. split; [reflexivity|exact E].
Qed.

Lemma box_new_shapes_witness :
  exists b, box_new (fun _ => EmptyString) candle_kernels (Bound_F64 (Fin 0)) (Bound_F64 (Fin 1))
              (Some [2%nat]) F32 None None 0 = Ok b
    /\ exists s, shape b = Some s /\ t_shape (low b) = s /\ t_shape (high b) = s.
Proof.
  eexists. split; [reflexivity|].
  destruct (box_new_shapes (fun _ => EmptyString) candle_kernels (Bound_F64 (Fin 0))
              (Bound_F64 (Fin 1)) (Some [2%nat]) F32 None None 0 _ eq_refl)
    as [s [H1 [_ [H2 [H3 _]]]]].
  exists s. split; [exact H1|]. split; [exact H2|exact H3].
Defined.

(** C4 fails with an explicit shape and buffer bounds: shape [[2]], a low
    buffer of shape [[3]] and a high buffer of shape [[1]] are stored as
    they are. *)
Lemma box_new_shape_mismatch_cx :
  exists b, box_new (fun _ => EmptyString) candle_kernels
              (Bound_Tensor (mkTensor [3%nat] [Fin 0; Fin 0; Fin 0] F32 Cpu))
              (Bound_Tensor (mkTensor [1%nat] [Fin 1] F32 Cpu))
              (Some [2%nat]) F32 None None 0 = Ok b
    /\ shape b = Some [2%nat] /\ t_shape (low b) = [3%nat] /\ t_shape (high b) = [1%nat].
Proof. eexists. split; [reflexivity|]. repeat split; reflexivity. Qed.

(** C2: infinite scalar bounds are stored as infinities: [_broadcast]
    clamps to [-f32::INFINITY, f32::INFINITY], which leaves them so. *)
Theorem box_new_keeps_infinities :
  exists b, box_new (fun _ => EmptyString) candle_kernels (Bound_F64 NInf) (Bound_F64 PInf)
              (Some [2%nat]) F32 None None 0 = Ok b
    /\ t_data (low b) = [NInf; NInf] /\ t_data (high b) = [PInf; PInf]
    /\ t_data (bounded_below b) = [Fin 0; Fin 0]
    /\ t_data (bounded_above b) = [Fin 0; Fin 0].
Proof. eexists. split; [reflexivity|]. repeat split; reflexivity. Qed.

(** C1: for [u8] buffers the infinities are first converted to [u8]
    ([-inf] to [0], [+inf] to [255]), so a low value [0] and a high value
    [255], both finite, are flagged as unbounded. *)
Theorem box_new_u8_flags :
  exists b, box_new (fun _ => EmptyString) candle_kernels
              (Bound_Tensor (mkTensor [2%nat] [Fin 0; Fin 1] U8 Cpu))
              (Bound_Tensor (mkTensor [2%nat] [Fin 255; Fin 254] U8 Cpu))
              None U8 None None 0 = Ok b
    /\ t_data (bounded_below b) = [Fin 0; Fin 1]
    /\ t_data (bounded_above b) = [Fin 0; Fin 1]
    /\ ext_gtb (Fin 0) NInf = true /\ ext_ltb (Fin 255) PInf = true.
Proof. eexists. split; [reflexivity|]. repeat split; reflexivity. Qed.

(** ** Summary formatting *)




(** ** [sample] and [contains] *)

(** C6 (as the code has it): [sample] panics for every mask, while
    [contains] returns [true] for every argument. *)
Theorem sample_panics_contains_true : forall (b : Box) (M : Type) (mask : option M)
    (T : Type) (x : T),
  (exists msg, sample b mask = Panic msg) /\ contains b x = Ok true.
Proof. intros. split; [eexists; reflexivity | reflexivity]. Qed.

(** C6 fails: [contains] returns a value instead of panicking. *)
Lemma contains_returns_cx :
  ~ (exists msg, contains
                   (mkBox None F32 (seed_from_u64 0) None
                      (mkTensor [] [] F32 Cpu) (mkTensor [] [] F32 Cpu)
                      EmptyString EmptyString
                      (mkTensor [] [] F32 Cpu) (mkTensor [] [] F32 Cpu)) tt
                 = Panic msg).
Proof. intros [msg H]. discriminate H. Qed.

(** ** Seeding *)

(** C7: with an explicit seed, [rs_random] returns that seed and a
    generator built from it alone: the entropy source is not consulted, so
    two calls give the same output sequence. *)
Theorem rs_random_deterministic : forall s e1 e2 n,
  snd (Seeding.rs_random (Some s) e1) = s
  /\ fst (Seeding.rs_random (Some s) e1) = seed_from_u64 (u64 s)
  /\ outputs (fst (Seeding.rs_random (Some s) e1)) n
     = outputs (fst (Seeding.rs_random (Some s) e2)) n.
Proof. intros. repeat split. Qed.

Example rs_random_42 :
  snd (Seeding.rs_random (Some 42) 7) = 42
  /\ outputs (fst (Seeding.rs_random (Some 42) 7)) 3
     = outputs (fst (Seeding.rs_random (Some 42) 12345)) 3.
Proof. vm_compute. split; reflexivity. Qed.

(** C8: [seed] replaces the generator by the one built from the applied
    seed (the argument, or the entropy draw when it is [None]), returns
    that seed as a one-element list, and keeps every other field. The new
    generator does not depend on the old one. *)
Theorem seed_replaces_generator : forall b sd e,
  let applied := match sd with Some s => s | None => e end in
  rs_random (fst (seed b sd e)) = seed_from_u64 (u64 applied)
  /\ snd (seed b sd e) = [applied]
  /\ (forall b2, rs_random (fst (seed b2 sd e)) = rs_random (fst (seed b sd e)))
  /\ shape (fst (seed b sd e)) = shape b
  /\ dtype (fst (seed b sd e)) = dtype b
  /\ device (fst (seed b sd e)) = device b
  /\ low (fst (seed b sd e)) = low b
  /\ high (fst (seed b sd e)) = high b
  /\ low_repr (fst (seed b sd e)) = low_repr b
  /\ high_repr (fst (seed b sd e)) = high_repr b
  /\ bounded_below (fst (seed b sd e)) = bounded_below b
  /\ bounded_above (fst (seed b sd e)) = bounded_above b.
Proof. intros b sd e applied. subst applied. destruct sd; repeat split. Qed.

(** * Further properties of [Box::new], [Box::seed] and [rs_random] *)

Lemma cast_flag_binary : forall d c,
  cast_value U8 d (flag c) = flag c.
Proof. intros [] []; reflexivity. Qed.

Definition bound_wf (b : Bound) : bool :=
  match b with Bound_F64 _ => true | Bound_Tensor t => wf_tensor t end.

Definition bound_is_float (b : Bound) : bool :=
  match b with Bound_F64 _ => true | Bound_Tensor t => is_float (t_dtype t) end.

(** Reseeding a Box with the seed it was built with gives back the same
    Box: [seed] rebuilds exactly the generator [Box::new] stored. *)
Theorem seed_after_new_same_seed : forall tts kern lo hi shp dt s dev e e' b,
  box_new tts kern lo hi shp dt (Some (USize s)) dev e = Ok b ->
  fst (seed b (Some s) e') = b.
Proof.
  intros tts kern lo hi shp dt s dev e e' b H.
  apply box_new_ok_inv in H as (s0 & _ & _ & _ & _ & Hg & _).
  destruct b as [? ? g ? ? ? ? ? ? ?]. cbn [rs_random] in Hg. subst g. reflexivity.
Qed.

Lemma seed_after_new_same_seed_witness :
  exists b, box_new (fun _ => EmptyString) candle_kernels (Bound_F64 (Fin (-1))) (Bound_F64 (Fin 1))
              (Some [2%nat]) F32 (Some (USize 42)) None 5 = Ok b
    /\ fst (seed b (Some 42) 9) = b.
Proof.
  eexists. split; [reflexivity|].
  apply (seed_after_new_same_seed (fun _ => EmptyString) candle_kernels (Bound_F64 (Fin (-1)))
           (Bound_F64 (Fin 1)) (Some [2%nat]) F32 42 None 5 9). reflexivity.
Defined.

(** Reseeding twice is reseeding once with the second seed. *)
Theorem seed_last_wins : forall b sd1 e1 sd2 e2,
  seed (fst (seed b sd1 e1)) sd2 e2 = seed b sd2 e2.
Proof. intros. destruct sd1, sd2; reflexivity. Qed.

(** The seed [rs_random] reports reproduces its generator: calling it again
    with that seed gives the same generator and the same seed. *)
Theorem rs_random_replay : forall sd e e',
  Seeding.rs_random (Some (snd (Seeding.rs_random sd e))) e' = Seeding.rs_random sd e.
Proof. intros [s|] e e'; reflexivity. Qed.

(** The boundedness flags of a constructed Box are stored in the Box's
    dtype, have the shape and length of the stored bound, and hold only 0
    or 1. *)
Theorem box_new_flags_binary : forall tts kern lo hi shp dt sd dev e b,
  box_new tts kern lo hi shp dt sd dev e = Ok b ->
  t_dtype (bounded_below b) = dt /\ t_dtype (bounded_above b) = dt
  /\ t_shape (bounded_below b) = t_shape (low b)
  /\ t_shape (bounded_above b) = t_shape (high b)
  /\ List.length (t_data (bounded_below b)) = List.length (t_data (low b))
  /\ List.length (t_data (bounded_above b)) = List.length (t_data (high b))
  /\ Forall (fun x => x = Fin 0 \/ x = Fin 1) (t_data (bounded_below b))
  /\ Forall (fun x => x = Fin 0 \/ x = Fin 1) (t_data (bounded_above b)).
Proof.
  intros tts kern lo hi shp dt sd dev e b H.
  apply box_new_ok_inv in H as (s & _ & _ & _ & _ & _ & _ & Hl & Hh & _ & _ & Hbb & Hba).
  rewrite Hl, Hh, Hbb, Hba.
  unfold to_dtype, gt, lt, cmp_scalar, clamp. cbn [t_data t_dtype t_shape].
  rewrite !map_map, !length_map.
  repeat split; try reflexivity;
    apply Forall_forall; intros x Hx; apply in_map_iff in Hx as [y [<- _]];
    rewrite cast_flag_binary; unfold flag; destruct (ext_gtb _ _) || destruct (ext_ltb _ _);
    auto.
Qed.

Lemma box_new_flags_binary_witness :
  exists b, box_new (fun _ => EmptyString) candle_kernels (Bound_F64 NInf) (Bound_F64 (Fin 3))
              (Some [2%nat]) I64 None None 0 = Ok b
    /\ Forall (fun x => x = Fin 0 \/ x = Fin 1) (t_data (bounded_below b)).
Proof.
  eexists. split; [reflexivity|].
  apply (box_new_flags_binary (fun _ => EmptyString) candle_kernels (Bound_F64 NInf)
           (Bound_F64 (Fin 3)) (Some [2%nat]) I64 None None 0). reflexivity.
Defined.

Lemma float_wf : forall t, is_float (t_dtype t) = true -> wf_tensor t = true.
Proof.
  intros t H. unfold wf_tensor. apply forallb_forall. intros x _.
  unfold in_range. rewrite H. reflexivity.
Qed.

(** For scalar bounds and float-typed buffers, [bounded_below[i]] is 1
    iff the stored [low[i]] is neither [-inf] nor NaN, and
    [bounded_above[i]] is 1 iff the stored [high[i]] is neither [+inf] nor
    NaN (every comparison with a NaN is false). *)
Theorem box_new_float_flags : forall tts kern lo hi shp dt sd dev e b,
  box_new tts kern lo hi shp dt sd dev e = Ok b ->
  bound_is_float lo = true -> bound_is_float hi = true ->
  forall i x,
    (nth_error (t_data (low b)) i = Some x ->
     nth_error (t_data (bounded_below b)) i
     = Some (flag (negb (ext_eqb x NInf) && negb (is_nan x))))
    /\ (nth_error (t_data (high b)) i = Some x ->
     nth_error (t_data (bounded_above b)) i
     = Some (flag (negb (ext_eqb x PInf) && negb (is_nan x)))).
Proof.
  intros tts kern lo hi shp dt sd dev e b H Hlo Hhi i x.
  apply box_new_ok_inv in H as (s & _ & _ & _ & _ & _ & _ & Hl & Hh & _ & _ & Hbb & Hba).
  set (dv := resolve_device dev) in *.
  assert (Fl : forall bd, bound_is_float bd = true ->
                 is_float (t_dtype (materialize bd s dv)) = true).
  { intros [v|t] Hb; [reflexivity|exact Hb]. }
  pose proof (Fl lo Hlo) as FL. pose proof (Fl hi Hhi) as FH.
  rewrite Hl, Hh, Hbb, Hba.
  rewrite !clamp_wf_id by (apply float_wf; assumption).
  unfold to_dtype, gt, lt, cmp_scalar. cbn [t_data t_dtype].
  destruct (t_dtype (materialize lo s dv)); try discriminate FL;
  destruct (t_dtype (materialize hi s dv)); try discriminate FH;
  cbn [cast_value is_float];
  split; intros Hx; rewrite !nth_error_map, Hx; cbn [option_map];
    rewrite cast_flag_binary; destruct x; reflexivity.
Qed.

Lemma box_new_float_flags_witness :
  exists b, box_new (fun _ => EmptyString) candle_kernels
              (Bound_Tensor (mkTensor [3%nat] [NInf; Fin 0; NaN] F32 Cpu))
              (Bound_Tensor (mkTensor [3%nat] [Fin 4; PInf; NaN] F32 Cpu))
              None F32 None None 0 = Ok b
    /\ nth_error (t_data (bounded_below b)) 2
       = Some (flag (negb (ext_eqb NaN NInf) && negb (is_nan NaN))).
Proof.
  eexists. split; [reflexivity|].
  apply (box_new_float_flags (fun _ => EmptyString) candle_kernels
           (Bound_Tensor (mkTensor [3%nat] [NInf; Fin 0; NaN] F32 Cpu))
           (Bound_Tensor (mkTensor [3%nat] [Fin 4; PInf; NaN] F32 Cpu))
           None F32 None None 0 _ eq_refl eq_refl eq_refl 2 NaN).
  reflexivity.
Defined.

(** For well-formed bounds the clamp of [_broadcast] changes nothing: buffer
    bounds are stored as given, scalar bounds as filled buffers, and the
    summaries describe the stored buffers. *)
Theorem box_new_stores_bounds : forall tts kern lo hi shp dt sd dev e b,
  box_new tts kern lo hi shp dt sd dev e = Ok b ->
  bound_wf lo = true -> bound_wf hi = true ->
  _short_repr tts kern (low b) = Ok (low_repr b)
  /\ _short_repr tts kern (high b) = Ok (high_repr b)
  /\ (forall t, lo = Bound_Tensor t -> low b = t)
  /\ (forall t, hi = Bound_Tensor t -> high b = t)
  /\ (forall v, lo = Bound_F64 v -> t_data (low b) = repeat v (elem_count (low b)))
  /\ (forall v, hi = Bound_F64 v -> t_data (high b) = repeat v (elem_count (high b))).
Proof.
  intros tts kern lo hi shp dt sd dev e b H Hlo Hhi.
  apply box_new_ok_inv in H as (s & _ & _ & _ & _ & _ & _ & Hl & Hh & Hlr & Hhr & _).
  assert (W : forall bd d, bound_wf bd = true -> wf_tensor (materialize bd s d) = true).
  { intros [v|t] d Hb; [apply full_wf|exact Hb]. }
  rewrite Hl, Hh, !clamp_wf_id by (apply W; assumption).
  split; [exact Hlr|]. split; [exact Hhr|].
  repeat split; intros ? ->; reflexivity.
Qed.

Lemma box_new_stores_bounds_witness :
  exists b, box_new (fun _ => EmptyString) candle_kernels
              (Bound_Tensor (mkTensor [2%nat] [Fin 0; Fin 7] U8 Cpu)) (Bound_F64 (Fin 9))
              (Some [2%nat]) U8 None None 0 = Ok b
    /\ low b = mkTensor [2%nat] [Fin 0; Fin 7] U8 Cpu.
Proof.
  eexists. split; [reflexivity|].
  destruct (box_new_stores_bounds (fun _ => EmptyString) candle_kernels
              (Bound_Tensor (mkTensor [2%nat] [Fin 0; Fin 7] U8 Cpu)) (Bound_F64 (Fin 9))
              (Some [2%nat]) U8 None None 0 _ eq_refl eq_refl eq_refl)
    as [_ [_ [Hl _]]].
  apply Hl. reflexivity.
Defined.






